(** * RBAC manifest generation (package [rbac] of controller-tools)

    A shallow embedding of [pkg/generate/rbac]: [ManifestOptions],
    [Validate], [Generate], [getClusterRoleManifest] and
    [getClusterRoleBindingManifest], and of the command [cmd/rbac] that
    calls it ([registerFlags] and the [Run] function of [main]), together
    with the properties of the generated role and role binding.

    Go values are modelled as follows.
    - [string] is Rocq's [string]; [a + b] and [fmt.Sprintf] with one [%s]/[%v]
      verb applied to a string are [+:+] (concatenation).
    - [[]T] is [list T]; a nil slice and an empty slice are both [[]]
      (the code only takes [len] of one).
    - [map[string]string] is [gmap string string]; a nil map is [∅].
    - [[]byte] is [list Byte.byte].
    - [error] is [option string]: [None] is [nil], [Some msg] an error whose
      [Error()] text is [msg] (every error built here comes from [fmt.Errorf]).
    - The operating system, the annotation parser ([ParseDir]) and the YAML
      encoder are collaborators of the package: they are taken as the
      operations of a type class over an abstract world state. *)

From stdpp Require Import base strings list gmap.
From Stdlib Require Import NArith.
From Stdlib.Strings Require Import Byte.

(** ** Data model *)

(** [k8s.io/apimachinery/pkg/apis/meta/v1]: the fields the package sets.
    Every other field of [ObjectMeta] keeps its zero value. *)
Module metav1.
Module TypeMeta.
Record t := Build { Kind : string; APIVersion : string }.
End TypeMeta.
Module ObjectMeta.
Record t := Build { Name : string; Labels : gmap string string }.
End ObjectMeta.
End metav1.

(** [k8s.io/api/rbac/v1]. *)
Module rbacv1.
Module PolicyRule.
Record t := Build {
      Verbs : list string;
      APIGroups : list string;
      Resources : list string;
      ResourceNames : list string;
      NonResourceURLs : list string }.
End PolicyRule.
Module Subject.
Record t := Build {
      Kind : string;
      APIGroup : string;
      Name : string;
      Namespace : string }.
End Subject.
Module RoleRef.
Record t := Build { APIGroup : string; Kind : string; Name : string }.
End RoleRef.
Module ClusterRole.
Record t := Build {
      TypeMeta : metav1.TypeMeta.t;
      ObjectMeta : metav1.ObjectMeta.t;
      Rules : list PolicyRule.t }.
End ClusterRole.
Module ClusterRoleBinding.
Record t := Build {
      TypeMeta : metav1.TypeMeta.t;
      ObjectMeta : metav1.ObjectMeta.t;
      Subjects : list Subject.t;
      RoleRef : RoleRef.t }.
End ClusterRoleBinding.
End rbacv1.

Abbreviation PolicyRule := rbacv1.PolicyRule.t.
Abbreviation ClusterRole := rbacv1.ClusterRole.t.
Abbreviation ClusterRoleBinding := rbacv1.ClusterRoleBinding.t.

(** Two resources are the same when all their fields are. *)
Global Instance TypeMeta_eq_dec : EqDecision metav1.TypeMeta.t.
Proof. solve_decision. Defined.
Global Instance ObjectMeta_eq_dec : EqDecision metav1.ObjectMeta.t.
Proof. solve_decision. Defined.
Global Instance PolicyRule_eq_dec : EqDecision PolicyRule.
Proof. solve_decision. Defined.
Global Instance Subject_eq_dec : EqDecision rbacv1.Subject.t.
Proof. solve_decision. Defined.
Global Instance RoleRef_eq_dec : EqDecision rbacv1.RoleRef.t.
Proof. solve_decision. Defined.
Global Instance ClusterRole_eq_dec : EqDecision ClusterRole.
Proof. solve_decision. Defined.
Global Instance ClusterRoleBinding_eq_dec : EqDecision ClusterRoleBinding.
Proof. solve_decision. Defined.

(** A Go [error] by its message; [None] is [nil]. *)
Abbreviation error := (option string).

(** [ManifestOptions] represent options for generating the RBAC manifests. *)
Record ManifestOptions := {
  InputDir : string;
  OutputDir : string;
  Name : string;
  Labels : gmap string string }.

(** ** Collaborators *)

(** What the package calls outside itself, over a world state [W]:
    [os.Stat] (its [FileInfo] is discarded by the caller), [ParseDir] (the
    annotation parser of this package, which reads the tree under a
    directory), [ioutil.WriteFile] and [filepath.Join]. *)
Class Host (W : Type) := {
  os_Stat : W → string → error;
  ParseDir : W → string → list PolicyRule * error;
  ioutil_WriteFile : W → string → list byte → N → W * error;
  filepath_Join : string → string → string }.

(** [yaml.Marshal] at the type of its argument. *)
Class Marshaler (A : Type) := yaml_Marshal : A → list byte * error.

(** ** Calls made during a run *)

Inductive call :=
| Call_Stat (name : string)
| Call_ParseDir (dir : string)
| Call_getClusterRoleManifest (rules : list PolicyRule) (o : ManifestOptions)
| Call_getClusterRoleBindingManifest (o : ManifestOptions)
| Call_WriteFile (filename : string) (data : list byte) (perm : N).

(** A computation threads the world and the log of calls made so far
    (oldest first). *)
Record IO (W A : Type) : Type :=
  MkIO { runIO : W * list call → A * (W * list call) }.
Arguments MkIO {W A} _.
Arguments runIO {W A} _ _.

Global Instance IO_ret {W} : MRet (IO W) := λ A a, MkIO (λ s, (a, s)).
Global Instance IO_bind {W} : MBind (IO W) :=
  λ A B f m, MkIO (λ s, let '(a, s') := runIO m s in runIO (f a) s').

Definition log {W} (c : call) : IO W () :=
  MkIO (λ s, ((), (s.1, s.2 ++ [c]))).

(** ** The package *)

Section rbac.
Context {W : Type} `{!Host W}.
Context `{!Marshaler ClusterRole, !Marshaler ClusterRoleBinding}.

Definition Stat (name : string) : IO W error :=
  _ ← log (Call_Stat name);
  MkIO (λ s, (os_Stat s.1 name, s)).

Definition WriteFile (filename : string) (data : list byte) (perm : N)
  : IO W error :=
  _ ← log (Call_WriteFile filename data perm);
  MkIO (λ s, let '(w, err) := ioutil_WriteFile s.1 filename data perm in
             (err, (w, s.2))).

Definition parseDir (dir : string) : IO W (list PolicyRule * error) :=
  _ ← log (Call_ParseDir dir);
  MkIO (λ s, (ParseDir s.1 dir, s)).

(** [Validate] validates the input options. *)
Definition Validate (o : ManifestOptions) : IO W error :=
    err ← Stat (InputDir o);
    match err with
    | Some err =>
        mret (Some ("invalid input directory '" +:+ InputDir o +:+ "' " +:+ err))
    | None =>
        err ← Stat (OutputDir o);
        match err with
        | Some err =>
            mret (Some ("invalid output directory '" +:+ OutputDir o
                        +:+ "' " +:+ err))
        | None => mret None
        end
    end.

(** The [role] literal of [getClusterRoleManifest]. *)
Definition getClusterRoleManifest_role
      (rules : list PolicyRule) (o : ManifestOptions) : ClusterRole :=
    {| rbacv1.ClusterRole.TypeMeta :=
         {| metav1.TypeMeta.Kind := "ClusterRole";
            metav1.TypeMeta.APIVersion := "rbac.authorization.k8s.io/v1" |};
       rbacv1.ClusterRole.ObjectMeta :=
         {| metav1.ObjectMeta.Name := Name o +:+ "-role";
            metav1.ObjectMeta.Labels := Labels o |};
       rbacv1.ClusterRole.Rules := rules |}.

Definition getClusterRoleManifest
      (rules : list PolicyRule) (o : ManifestOptions) : list byte * error :=
    yaml_Marshal (getClusterRoleManifest_role rules o).

(** The [rolebinding] literal of [getClusterRoleBindingManifest]. *)
Definition getClusterRoleBindingManifest_rolebinding
      (o : ManifestOptions) : ClusterRoleBinding :=
    {| rbacv1.ClusterRoleBinding.TypeMeta :=
         {| metav1.TypeMeta.APIVersion := "rbac.authorization.k8s.io/v1";
            metav1.TypeMeta.Kind := "ClusterRoleBinding" |};
       rbacv1.ClusterRoleBinding.ObjectMeta :=
         {| metav1.ObjectMeta.Name := Name o +:+ "-rolebinding";
            metav1.ObjectMeta.Labels := Labels o |};
       rbacv1.ClusterRoleBinding.Subjects :=
         [ {| rbacv1.Subject.Name := "default";
              rbacv1.Subject.Namespace := Name o +:+ "-system";
              rbacv1.Subject.Kind := "ServiceAccount";
              rbacv1.Subject.APIGroup := "" |} ];
       rbacv1.ClusterRoleBinding.RoleRef :=
         {| rbacv1.RoleRef.Name := Name o +:+ "-role";
            rbacv1.RoleRef.Kind := "ClusterRole";
            rbacv1.RoleRef.APIGroup := "rbac.authorization.k8s.io" |} |}.

Definition getClusterRoleBindingManifest (o : ManifestOptions)
    : list byte * error :=
    yaml_Marshal (getClusterRoleBindingManifest_rolebinding o).

(** Permission bits [0666]. *)
Definition perm_0666 : N := 438.

(** [Generate] generates RBAC manifests by parsing the RBAC annotations in
      Go source files specified in the input directory. *)
Definition Generate (o : ManifestOptions) : IO W error :=
    err ← Validate o;
    match err with
    | Some err => mret (Some err)
    | None =>
    '(rules, err) ← parseDir (InputDir o);
    match err with
    | Some err => mret (Some ("failed to parse the input dir " +:+ err))
    | None =>
    if decide (length rules = 0) then mret None else
    _ ← log (Call_getClusterRoleManifest rules o);
    let '(roleManifest, err) := getClusterRoleManifest rules o in
    match err with
    | Some err => mret (Some ("failed to generate role manifest " +:+ err))
    | None =>
    _ ← log (Call_getClusterRoleBindingManifest o);
    let '(roleBindingManifest, err) := getClusterRoleBindingManifest o in
    match err with
    | Some err =>
        mret (Some ("failed to generate role binding manifests " +:+ err))
    | None =>
    let roleManifestFile := filepath_Join (OutputDir o) "rbac_role.yaml" in
    err ← WriteFile roleManifestFile roleManifest perm_0666;
    match err with
    | Some err =>
        mret (Some ("failed to write role manifest YAML file " +:+ err))
    | None =>
    let roleBindingManifestFile :=
      filepath_Join (OutputDir o) "rbac_role_binding.yaml" in
    err ← WriteFile roleBindingManifestFile roleBindingManifest perm_0666;
    match err with
    | Some err =>
        mret (Some ("failed to write role manifest YAML file " +:+ err))
    | None => mret None
    end end end end end end.

End rbac.

(** ** What the two builders render *)

(** [role] is the role that [getClusterRoleManifest rules o] renders:
    whatever the encoder, the manifest is the encoder's result on [role]. *)
Definition rendered_role
    (rules : list PolicyRule) (o : ManifestOptions) (role : ClusterRole) : Prop :=
  ∀ M : Marshaler ClusterRole,
    @getClusterRoleManifest M rules o = @yaml_Marshal ClusterRole M role.

(** [binding] is the binding that [getClusterRoleBindingManifest o]
    renders. *)
Definition rendered_binding
    (o : ManifestOptions) (binding : ClusterRoleBinding) : Prop :=
  ∀ M : Marshaler ClusterRoleBinding,
    @getClusterRoleBindingManifest M o
    = @yaml_Marshal ClusterRoleBinding M binding.

(** ** Reading a run *)

(** A run of [m] from world [w], with an empty log. *)
Definition run {W A} (m : IO W A) (w : W) : A * (W * list call) :=
  runIO m (w, []).

Definition is_write (c : call) : bool :=
  match c with Call_WriteFile _ _ _ => true | _ => false end.

Definition is_scan (c : call) : bool :=
  match c with Call_ParseDir _ => true | _ => false end.


Section reading.
Context {W : Type} `{!Host W}.
Context `{!Marshaler ClusterRole, !Marshaler ClusterRoleBinding}.

(** The calls every run that reaches the parser has made by then. *)
Definition scanned (o : ManifestOptions) : list call :=
  [Call_Stat (InputDir o); Call_Stat (OutputDir o); Call_ParseDir (InputDir o)].

(** The calls of a run that reaches its first write, up to that write. *)
Definition built (rules : list PolicyRule) (o : ManifestOptions) : list call :=
  scanned o ++ [Call_getClusterRoleManifest rules o;
                Call_getClusterRoleBindingManifest o].

Definition write_role (o : ManifestOptions) (data : list byte) : call :=
  Call_WriteFile (filepath_Join (OutputDir o) "rbac_role.yaml") data perm_0666.

Definition write_binding (o : ManifestOptions) (data : list byte) : call :=
  Call_WriteFile (filepath_Join (OutputDir o) "rbac_role_binding.yaml")
                 data perm_0666.

(** Both directories are found. *)
Definition validated (w : W) (o : ManifestOptions) : Prop :=
  os_Stat w (InputDir o) = None ∧ os_Stat w (OutputDir o) = None.

(** A step before the first write fails with error [e]: the first step of
    the run to fail, every earlier one having succeeded. *)
Inductive upstream_failure (w : W) (o : ManifestOptions) : string → Prop :=
| input_dir_fails e :
    os_Stat w (InputDir o) = Some e → upstream_failure w o e
| output_dir_fails e :
    os_Stat w (InputDir o) = None → os_Stat w (OutputDir o) = Some e →
    upstream_failure w o e
| scan_fails rules e :
    validated w o → ParseDir w (InputDir o) = (rules, Some e) →
    upstream_failure w o e
| role_rendering_fails rules data e :
    validated w o → ParseDir w (InputDir o) = (rules, None) →
    length rules ≠ 0 →
    getClusterRoleManifest rules o = (data, Some e) →
    upstream_failure w o e
| binding_rendering_fails rules role data e :
    validated w o → ParseDir w (InputDir o) = (rules, None) →
    length rules ≠ 0 →
    getClusterRoleManifest rules o = (role, None) →
    getClusterRoleBindingManifest o = (data, Some e) →
    upstream_failure w o e.



End reading.

(** ** The command ([cmd/rbac/main.go]) *)

(** The values given on the command line for [--name], [--input-dir] and
    [--output-dir]; [None] for a flag that is not given. *)
Record CommandLine := {
  flag_name : option string;
  flag_input_dir : option string;
  flag_output_dir : option string }.

(** [registerFlags]: each [StringVar] stores the flag's default value in the
    field it is bound to. No flag is bound to [Labels]. *)
Definition registerFlags (o : ManifestOptions) : ManifestOptions :=
  {| Name := "manager";
     InputDir := "./pkg";
     OutputDir := "./config";
     Labels := Labels o |}.

(** What [cmd.Execute] does to the options before it calls [Run]: a flag
    given on the command line replaces the value stored in its field. *)
Definition parseFlags (args : CommandLine) (o : ManifestOptions)
  : ManifestOptions :=
  {| Name := default (Name o) (flag_name args);
     InputDir := default (InputDir o) (flag_input_dir args);
     OutputDir := default (OutputDir o) (flag_output_dir args);
     Labels := Labels o |}.

(** How [Run] ends: it returns after [fmt.Printf] wrote [stdout], or
    [log.Fatal] wrote [message] to the standard error (behind the logger's
    time stamp, left out here) and exited with status 1. *)
Inductive outcome :=
| Printed (stdout : string)
| Fatal (message : string).

Definition newline : string := String (Ascii.ascii_of_nat 10) "".

Section command.
Context {W : Type} `{!Host W}.
Context `{!Marshaler ClusterRole, !Marshaler ClusterRoleBinding}.

(** The [Run] function of the command. *)
Definition main_Run (o : ManifestOptions) : IO W outcome :=
  err ← Generate o;
  match err with
  | Some err => mret (Fatal err)
  | None =>
      mret (Printed ("RBAC manifests generated under '" +:+ OutputDir o
                     +:+ "' directory" +:+ newline))
  end.

(** [main] on a command line whose flags parse: the options start as the
    zero value [&rbac.ManifestOptions{}]. *)
Definition main (args : CommandLine) : IO W outcome :=
  main_Run (parseFlags args
              (registerFlags {| InputDir := ""; OutputDir := "";
                                Name := ""; Labels := ∅ |})).

(** The calls of a run in which every step succeeds. *)
Definition pipeline (w : W) (o : ManifestOptions) : list call :=
  built (ParseDir w (InputDir o)).1 o
  ++ [write_role o (getClusterRoleManifest (ParseDir w (InputDir o)).1 o).1;
      write_binding o (getClusterRoleBindingManifest o).1].

End command.

(** ** Aggregation, in the words of the specification *)

(** The fields of a rule are sets of strings: two of them are the same
    when they have the same members, in whatever order and number. *)
Definition same_set (l1 l2 : list string) : Prop := l1 ⊆ l2 ∧ l2 ⊆ l1.

Global Instance same_set_dec : RelDecision same_set.
Proof. intros l1 l2. unfold same_set. apply _. Defined.

(** Two rules have the same tuple of non-verb fields {apiGroups, resources,
    resourceNames, nonResourceURLs}. *)
Definition same_target (r x : PolicyRule) : Prop :=
  same_set (rbacv1.PolicyRule.APIGroups r) (rbacv1.PolicyRule.APIGroups x) ∧
  same_set (rbacv1.PolicyRule.Resources r) (rbacv1.PolicyRule.Resources x) ∧
  same_set (rbacv1.PolicyRule.ResourceNames r)
           (rbacv1.PolicyRule.ResourceNames x) ∧
  same_set (rbacv1.PolicyRule.NonResourceURLs r)
           (rbacv1.PolicyRule.NonResourceURLs x).

Global Instance same_target_dec : RelDecision same_target.
Proof. intros r x. unfold same_target. apply _. Defined.

(** [output] is the aggregate of [input]: every rule of [output] has the
    tuple of some input rule, and for the tuple of every input rule exactly
    one rule of [output] carries it, whose verbs have no duplicate and are the
    union of the verbs of the input rules with that tuple. *)
Definition aggregates (input output : list PolicyRule) : Prop :=
  (∀ r, r ∈ output → ∃ x, x ∈ input ∧ same_target r x) ∧
  ∀ x, x ∈ input →
    ∃ r, filter (λ y, same_target y x) output = [r] ∧
         NoDup (rbacv1.PolicyRule.Verbs r) ∧
         ∀ v, v ∈ rbacv1.PolicyRule.Verbs r ↔
              ∃ y, y ∈ input ∧ same_target y x ∧
                   v ∈ rbacv1.PolicyRule.Verbs y.


(** ** An in-memory host

    A small file system used to run the package on concrete inputs: the
    names [os.Stat] finds, the rules annotated under each source directory,
    the files written so far, and the names that refuse a write. *)
Module Mem.

Record world := {
  paths : list string;
  annotated : list (string * list PolicyRule);
  files : list (string * list byte);
  readonly : list string }.

Fixpoint assoc {A} (k : string) (l : list (string * A)) : option A :=
  match l with
  | [] => None
  | (k', a) :: l => if decide (k' = k) then Some a else assoc k l
  end.

Definition stat (w : world) (name : string) : error :=
  if decide (name ∈ paths w) then None
  else Some ("stat " +:+ name +:+ ": no such file or directory").

Definition parse (w : world) (dir : string) : list PolicyRule * error :=
  match assoc dir (annotated w) with
  | Some rules => (rules, None)
  | None => ([], Some ("lstat " +:+ dir +:+ ": no such file or directory"))
  end.

Definition write (w : world) (filename : string) (data : list byte) (perm : N)
  : world * error :=
  if decide (filename ∈ readonly w)
  then (w, Some ("open " +:+ filename +:+ ": permission denied"))
  else ({| paths := filename :: paths w;
           annotated := annotated w;
           files := (filename, data) :: files w;
           readonly := readonly w |}, None).

(** [filepath.Clean] and [filepath.Join] on slash-separated paths. *)

(** The elements of a path, between its slashes. *)
Fixpoint elements (path : string) : list string :=
  match path with
  | EmptyString => [""]
  | String c path =>
      if decide (String c "" = "/") then "" :: elements path
      else match elements path with
           | e :: es => String c e :: es
           | [] => [String c ""]
           end
  end.

(** Empty and [.] elements go; a [..] removes the element before it, is
    dropped at the root, and is kept at the start of a relative path.
    [kept] holds the elements kept so far, last first. *)
Fixpoint clean_elements (rooted : bool) (kept es : list string) : list string :=
  match es with
  | [] => reverse kept
  | e :: es =>
      if decide (e = "" ∨ e = ".") then clean_elements rooted kept es
      else if decide (e = "..") then
        match kept with
        | k :: kept' =>
            if decide (k = "..") then clean_elements rooted (e :: kept) es
            else clean_elements rooted kept' es
        | [] =>
            if rooted then clean_elements rooted [] es
            else clean_elements rooted [e] es
        end
      else clean_elements rooted (e :: kept) es
  end.

Definition clean (path : string) : string :=
  match path with
  | EmptyString => "."
  | String c _ =>
      let rooted := bool_decide (String c "" = "/") in
      let body := String.concat "/" (clean_elements rooted [] (elements path)) in
      if rooted then "/" +:+ body
      else if decide (body = "") then "." else body
  end.

(** Empty elements are ignored, the others joined by a slash and cleaned;
    when both are empty the result is empty. *)
Definition join (dir file : string) : string :=
  if decide (dir = "") then (if decide (file = "") then "" else clean file)
  else if decide (file = "") then clean dir
  else clean (dir +:+ "/" +:+ file).

#[export] Instance host : Host world :=
  {| os_Stat := stat; ParseDir := parse;
     ioutil_WriteFile := write; filepath_Join := join |}.

(** A line-per-field text encoder standing in for the YAML one. *)
Definition line (k v : string) : string := k +:+ ": " +:+ v +:+ "; ".

Definition meta (t : metav1.TypeMeta.t) (m : metav1.ObjectMeta.t) : string :=
  line "apiVersion" (metav1.TypeMeta.APIVersion t)
  +:+ line "kind" (metav1.TypeMeta.Kind t)
  +:+ line "name" (metav1.ObjectMeta.Name m)
  +:+ String.concat ""
        (map (λ kv, line ("label " +:+ kv.1) kv.2)
             (map_to_list (metav1.ObjectMeta.Labels m))).

Definition items (k : string) (l : list string) : string :=
  line k (String.concat "," l).

Definition rule (r : PolicyRule) : string :=
  items "apiGroups" (rbacv1.PolicyRule.APIGroups r)
  +:+ items "resources" (rbacv1.PolicyRule.Resources r)
  +:+ items "resourceNames" (rbacv1.PolicyRule.ResourceNames r)
  +:+ items "nonResourceURLs" (rbacv1.PolicyRule.NonResourceURLs r)
  +:+ items "verbs" (rbacv1.PolicyRule.Verbs r).

#[export] Instance marshal_role : Marshaler ClusterRole := λ r,
  (String.list_byte_of_string
     (meta (rbacv1.ClusterRole.TypeMeta r) (rbacv1.ClusterRole.ObjectMeta r)
      +:+ String.concat "" (map rule (rbacv1.ClusterRole.Rules r))),
   None).

#[export] Instance marshal_binding : Marshaler ClusterRoleBinding := λ b,
  (String.list_byte_of_string
     (meta (rbacv1.ClusterRoleBinding.TypeMeta b)
           (rbacv1.ClusterRoleBinding.ObjectMeta b)
      +:+ String.concat ""
            (map (λ s, line "subject" (rbacv1.Subject.Kind s +:+ " "
                                       +:+ rbacv1.Subject.Namespace s +:+ "/"
                                       +:+ rbacv1.Subject.Name s))
                 (rbacv1.ClusterRoleBinding.Subjects b))
      +:+ line "roleRef"
            (rbacv1.RoleRef.Kind (rbacv1.ClusterRoleBinding.RoleRef b) +:+ " "
             +:+ rbacv1.RoleRef.Name (rbacv1.ClusterRoleBinding.RoleRef b))),
   None).

(** An encoder that refuses every value. *)
Definition refuse {A} : Marshaler A := λ _, ([], Some "yaml: unsupported value").

(** Rules as an annotation such as
    [+rbac:groups=,resources=pods,verbs=get] yields them. *)
Definition pods (verbs : list string) : PolicyRule :=
  {| rbacv1.PolicyRule.Verbs := verbs;
     rbacv1.PolicyRule.APIGroups := [""];
     rbacv1.PolicyRule.Resources := ["pods"];
     rbacv1.PolicyRule.ResourceNames := [];
     rbacv1.PolicyRule.NonResourceURLs := [] |}.

Definition pods_get : PolicyRule := pods ["get"].
Definition pods_list : PolicyRule := pods ["list"].

(** The command's default options, [--name manager --input-dir ./pkg
    --output-dir ./config]; the command leaves [Labels] nil. *)
Definition manager : ManifestOptions :=
  {| InputDir := "./pkg"; OutputDir := "./config";
     Name := "manager"; Labels := ∅ |}.

(** A tree with both directories and two annotations on pods. *)
Definition tree : world :=
  {| paths := ["./pkg"; "./config"];
     annotated := [("./pkg", [pods_get; pods_list])];
     files := [];
     readonly := [] |}.


(** A tree whose source directory carries no annotation. *)
Definition bare : world :=
  {| paths := ["./pkg"; "./config"];
     annotated := [("./pkg", [])];
     files := [];
     readonly := [] |}.

(** A tree without the source directory. *)
Definition no_input : world :=
  {| paths := ["./config"]; annotated := []; files := []; readonly := [] |}.

(** The world a run on [tree] with the default options leaves behind. *)
Definition generated : world := (run (Generate manager) tree).2.1.

(** A tree in which the binding's file refuses to be written. *)
Definition locked_binding : world :=
  {| paths := ["./pkg"; "./config"];
     annotated := [("./pkg", [pods_get])];
     files := [];
     readonly := ["config/rbac_role_binding.yaml"] |}.

(** A command line without flags. *)
Definition no_flags : CommandLine :=
  {| flag_name := None; flag_input_dir := None; flag_output_dir := None |}.

End Mem.

(** * Properties *)

(** ** The run of [Generate], step by step *)

Lemma append_assoc (s1 s2 s3 : string) :
  (s1 +:+ s2) +:+ s3 = s1 +:+ s2 +:+ s3.
Proof.
  induction s1 as [|c s1 IH]; [done|].
  change (String c ((s1 +:+ s2) +:+ s3) = String c (s1 +:+ s2 +:+ s3)).
  by rewrite IH.
Qed.

Section run.
Context {W : Type} `{!Host W}.
Context `{!Marshaler ClusterRole, !Marshaler ClusterRoleBinding}.

Lemma run_Validate w o :
  run (Validate o) w =
  match os_Stat w (InputDir o) with
  | Some e =>
      (Some ("invalid input directory '" +:+ InputDir o +:+ "' " +:+ e),
       (w, [Call_Stat (InputDir o)]))
  | None =>
      match os_Stat w (OutputDir o) with
      | Some e =>
          (Some ("invalid output directory '" +:+ OutputDir o +:+ "' " +:+ e),
           (w, [Call_Stat (InputDir o); Call_Stat (OutputDir o)]))
      | None => (None, (w, [Call_Stat (InputDir o); Call_Stat (OutputDir o)]))
      end
  end.
Proof.
  unfold run, Validate, Stat, log, mbind, mret, IO_bind, IO_ret; simpl.
  destruct (os_Stat w (InputDir o)); simpl; [done|].
  by destruct (os_Stat w (OutputDir o)).
Qed.

Lemma run_Generate w o :
  run (Generate o) w =
  match os_Stat w (InputDir o) with
  | Some e =>
      (Some ("invalid input directory '" +:+ InputDir o +:+ "' " +:+ e),
       (w, [Call_Stat (InputDir o)]))
  | None =>
  match os_Stat w (OutputDir o) with
  | Some e =>
      (Some ("invalid output directory '" +:+ OutputDir o +:+ "' " +:+ e),
       (w, [Call_Stat (InputDir o); Call_Stat (OutputDir o)]))
  | None =>
  match ParseDir w (InputDir o) with
  | (_, Some e) => (Some ("failed to parse the input dir " +:+ e), (w, scanned o))
  | (rules, None) =>
  if decide (length rules = 0) then (None, (w, scanned o)) else
  match getClusterRoleManifest rules o with
  | (_, Some e) =>
      (Some ("failed to generate role manifest " +:+ e),
       (w, scanned o ++ [Call_getClusterRoleManifest rules o]))
  | (roleManifest, None) =>
  match getClusterRoleBindingManifest o with
  | (_, Some e) =>
      (Some ("failed to generate role binding manifests " +:+ e),
       (w, built rules o))
  | (roleBindingManifest, None) =>
  match ioutil_WriteFile w (filepath_Join (OutputDir o) "rbac_role.yaml")
                         roleManifest perm_0666 with
  | (w1, Some e) =>
      (Some ("failed to write role manifest YAML file " +:+ e),
       (w1, built rules o ++ [write_role o roleManifest]))
  | (w1, None) =>
  match ioutil_WriteFile w1
          (filepath_Join (OutputDir o) "rbac_role_binding.yaml")
          roleBindingManifest perm_0666 with
  | (w2, Some e) =>
      (Some ("failed to write role manifest YAML file " +:+ e),
       (w2, built rules o ++ [write_role o roleManifest;
                               write_binding o roleBindingManifest]))
  | (w2, None) =>
      (None,
       (w2, built rules o ++ [write_role o roleManifest;
                               write_binding o roleBindingManifest]))
  end end end end end end end.
Proof.
  pose proof (run_Validate w o) as HV. unfold run in *.
  unfold Generate. unfold mbind at 1. unfold IO_bind at 1. cbn [runIO].
  rewrite HV; clear HV.
  destruct (os_Stat w (InputDir o)); simpl; [done|].
  destruct (os_Stat w (OutputDir o)); simpl; [done|].
  unfold parseDir, WriteFile, log, mbind, mret, IO_bind, IO_ret; simpl.
  destruct (ParseDir w (InputDir o)) as [rules [e|]]; simpl; [done|].
  destruct (decide (length rules = 0)); simpl; [done|].
  destruct (getClusterRoleManifest rules o) as [rm [e|]]; simpl; [done|].
  destruct (getClusterRoleBindingManifest o) as [bm [e|]]; simpl; [done|].
  destruct (ioutil_WriteFile w _ rm perm_0666) as [w1 [e|]]; simpl; [done|].
  by destruct (ioutil_WriteFile w1 _ bm perm_0666) as [w2 [e|]].
Qed.

End run.

(** ** What a builder renders is one value *)

Lemma rendered_role_literal (rules : list PolicyRule) (o : ManifestOptions) :
  rendered_role rules o (getClusterRoleManifest_role rules o).
Proof. by intros M. Qed.

Lemma rendered_binding_literal (o : ManifestOptions) :
  rendered_binding o (getClusterRoleBindingManifest_rolebinding o).
Proof. by intros M. Qed.


Lemma rendered_binding_unique o (b1 b2 : ClusterRoleBinding) :
  rendered_binding o b1 → rendered_binding o b2 → b1 = b2.
Proof.
  intros H1 H2.
  pose (M := (λ b, ([], if decide (b = b1) then None else Some ""))
             : Marshaler ClusterRoleBinding).
  specialize (H1 M). specialize (H2 M). rewrite H1 in H2.
  unfold yaml_Marshal, M in H2. rewrite decide_True in H2 by done.
  by destruct (decide (b2 = b1)).
Qed.

(** ** Rules with the same tuple of non-verb fields *)








(** ** The two resources *)



(** C3. For a non-empty identity name [N], the role that
    [getClusterRoleManifest] renders is named [N-role] and the binding that
    [getClusterRoleBindingManifest] renders [N-rolebinding]; the binding
    refers to the role by the role's own name, [N-role], and its subject is
    [default] in namespace [N-system]. *)
Theorem names_derive_from_identity (rules : list PolicyRule) (o : ManifestOptions) :
  Name o ≠ "" →
  ∃ role binding,
    rendered_role rules o role ∧ rendered_binding o binding ∧
    metav1.ObjectMeta.Name (rbacv1.ClusterRole.ObjectMeta role)
      = Name o +:+ "-role" ∧
    metav1.ObjectMeta.Name (rbacv1.ClusterRoleBinding.ObjectMeta binding)
      = Name o +:+ "-rolebinding" ∧
    rbacv1.RoleRef.Name (rbacv1.ClusterRoleBinding.RoleRef binding)
      = metav1.ObjectMeta.Name (rbacv1.ClusterRole.ObjectMeta role) ∧
    rbacv1.RoleRef.Name (rbacv1.ClusterRoleBinding.RoleRef binding)
      = Name o +:+ "-role" ∧
    rbacv1.Subject.Namespace <$> rbacv1.ClusterRoleBinding.Subjects binding
      = [Name o +:+ "-system"] ∧
    rbacv1.Subject.Name <$> rbacv1.ClusterRoleBinding.Subjects binding
      = ["default"].
Proof.
  intros _.
  exists (getClusterRoleManifest_role rules o),
         (getClusterRoleBindingManifest_rolebinding o).
  split; [apply rendered_role_literal|].
  split; [apply rendered_binding_literal|]. by repeat split.
Qed.

(** C7. The role holds the rule list it is given as it is (same rules, same
    order, same multiplicity) and the labels of the options as they are; the
    manifest is the encoding of that role. *)
Theorem role_holds_rules_and_labels
    `{!Marshaler ClusterRole} (rules : list PolicyRule) (o : ManifestOptions) :
  rbacv1.ClusterRole.Rules (getClusterRoleManifest_role rules o) = rules ∧
  metav1.ObjectMeta.Labels
    (rbacv1.ClusterRole.ObjectMeta (getClusterRoleManifest_role rules o))
    = Labels o ∧
  getClusterRoleManifest rules o
    = yaml_Marshal (getClusterRoleManifest_role rules o).
Proof. by repeat split. Qed.

(** C8. Whatever the rules and options, the role that
    [getClusterRoleManifest] renders is tagged [ClusterRole] /
    [rbac.authorization.k8s.io/v1] and the binding that
    [getClusterRoleBindingManifest] renders [ClusterRoleBinding] /
    [rbac.authorization.k8s.io/v1]; the two tags differ. *)
Theorem type_tags_fixed (rules : list PolicyRule) (o : ManifestOptions) :
  ∃ role binding,
    rendered_role rules o role ∧ rendered_binding o binding ∧
    rbacv1.ClusterRole.TypeMeta role
      = {| metav1.TypeMeta.Kind := "ClusterRole";
           metav1.TypeMeta.APIVersion := "rbac.authorization.k8s.io/v1" |} ∧
    rbacv1.ClusterRoleBinding.TypeMeta binding
      = {| metav1.TypeMeta.Kind := "ClusterRoleBinding";
           metav1.TypeMeta.APIVersion := "rbac.authorization.k8s.io/v1" |} ∧
    rbacv1.ClusterRole.TypeMeta role
      ≠ rbacv1.ClusterRoleBinding.TypeMeta binding.
Proof.
  exists (getClusterRoleManifest_role rules o),
         (getClusterRoleBindingManifest_rolebinding o).
  split; [apply rendered_role_literal|].
  split; [apply rendered_binding_literal|]. by repeat split.
Qed.

(** C10. The binding that [getClusterRoleBindingManifest] renders has
    exactly one subject, the service account [default], and refers to its
    role in the API group [rbac.authorization.k8s.io]. *)
Theorem binding_subject_and_group (o : ManifestOptions) :
  ∃ binding,
    rendered_binding o binding ∧
    length (rbacv1.ClusterRoleBinding.Subjects binding) = 1 ∧
    Forall (λ s, rbacv1.Subject.Name s = "default" ∧
                 rbacv1.Subject.Kind s = "ServiceAccount")
           (rbacv1.ClusterRoleBinding.Subjects binding) ∧
    rbacv1.RoleRef.APIGroup (rbacv1.ClusterRoleBinding.RoleRef binding)
      = "rbac.authorization.k8s.io".
Proof.
  exists (getClusterRoleBindingManifest_rolebinding o).
  split; [apply rendered_binding_literal|].
  repeat split. by repeat constructor.
Qed.

(** ** Runs of [Generate] *)

Section runs.
Context {W : Type} `{!Host W}.
Context `{!Marshaler ClusterRole, !Marshaler ClusterRoleBinding}.

(** A run that succeeds on a non-empty rule list makes exactly two writes:
    the encoded role, then the encoded binding. *)
Lemma Generate_writes w o rules s :
  ParseDir w (InputDir o) = (rules, None) → length rules ≠ 0 →
  run (Generate o) w = (None, s) →
  filter is_write s.2 =
    [write_role o (getClusterRoleManifest rules o).1;
     write_binding o (getClusterRoleBindingManifest o).1].
Proof.
  intros HP Hlen. rewrite run_Generate, HP.
  destruct (os_Stat w (InputDir o)); [done|].
  destruct (os_Stat w (OutputDir o)); [done|].
  destruct (decide (length rules = 0)); [done|].
  destruct (getClusterRoleManifest rules o) as [rm [?|]]; [done|].
  destruct (getClusterRoleBindingManifest o) as [bm [?|]]; [done|].
  destruct (ioutil_WriteFile w _ rm _) as [w1 [?|]]; [done|].
  destruct (ioutil_WriteFile w1 _ bm _) as [w2 [?|]]; [done|].
  by intros [= <-].
Qed.

(** A run that succeeds on an empty rule list writes nothing. *)
Lemma Generate_writes_nil w o s :
  ParseDir w (InputDir o) = ([], None) →
  run (Generate o) w = (None, s) → filter is_write s.2 = [].
Proof.
  intros HP. rewrite run_Generate, HP.
  destruct (os_Stat w (InputDir o)); [done|].
  destruct (os_Stat w (OutputDir o)); [done|].
  simpl. by intros [= <-].
Qed.

(** C4. When both directories are found and the parser returns no rule and
    no error, the run returns [nil], leaves the world as it was and has made
    no call besides the two [Stat]s and the parse: no file is written. *)
Theorem Generate_without_rules (w : W) (o : ManifestOptions) :
  validated w o →
  ParseDir w (InputDir o) = ([], None) →
  run (Generate o) w = (None, (w, scanned o)) ∧
  filter is_write (scanned o) = [].
Proof.
  intros [Hin Hout] HP. split; [|done].
  by rewrite run_Generate, Hin, Hout, HP.
Qed.


(** C6. When a step before the first write fails with error [e] (a
    directory is not found, the parser fails, or one of the two encodings
    fails), the run returns an error whose text ends with [e], the world is
    as it was, and no write was attempted. When it is the input directory
    that is not found, the error is [invalid input directory '<dir>' <e>]
    and the only call made is the [Stat] of that directory: the parser is not
    called. *)
Theorem Generate_upstream_failure (w : W) (o : ManifestOptions) (e : string) :
  upstream_failure w o e →
  ∃ context calls,
    run (Generate o) w = (Some (context +:+ e), (w, calls)) ∧
    filter is_write calls = [] ∧
    (os_Stat w (InputDir o) = Some e →
     context = "invalid input directory '" +:+ InputDir o +:+ "' " ∧
     calls = [Call_Stat (InputDir o)] ∧
     filter is_scan calls = []).
Proof.
  intros Hfail. rewrite run_Generate.
  destruct Hfail as [e Hin|e Hin Hout|rules e [Hin Hout] HP
                    |rules data e [Hin Hout] HP Hlen HR
                    |rules role data e [Hin Hout] HP Hlen HR HB].
  - rewrite Hin.
    exists ("invalid input directory '" +:+ InputDir o +:+ "' "); eexists.
    split; [by rewrite !append_assoc|done].
  - rewrite Hin, Hout.
    exists ("invalid output directory '" +:+ OutputDir o +:+ "' "); eexists.
    split; [by rewrite !append_assoc|split; [done|congruence]].
  - rewrite Hin, Hout, HP.
    exists "failed to parse the input dir "; eexists.
    split; [done|split; [done|congruence]].
  - rewrite Hin, Hout, HP, HR. rewrite decide_False by done.
    exists "failed to generate role manifest "; eexists.
    split; [done|split; [done|congruence]].
  - rewrite Hin, Hout, HP, HR, HB. rewrite decide_False by done.
    exists "failed to generate role binding manifests "; eexists.
    split; [done|split; [done|congruence]].
Qed.

(** C9. Two runs with the same options in which the parser returns the
    same rules, each of them successful, make the same writes: the same file
    names with the same bytes, in the same order, whatever else differs
    between the two worlds. *)
Theorem Generate_reproducible
    (w1 w2 : W) (o : ManifestOptions) (s1 s2 : W * list call) :
  ParseDir w1 (InputDir o) = ParseDir w2 (InputDir o) →
  run (Generate o) w1 = (None, s1) →
  run (Generate o) w2 = (None, s2) →
  filter is_write s1.2 = filter is_write s2.2.
Proof.
  intros HP H1 H2.
  destruct (ParseDir w2 (InputDir o)) as [rules [e|]] eqn:HP2.
  - rewrite run_Generate, HP2 in H2.
    destruct (os_Stat w2 (InputDir o)); [done|].
    by destruct (os_Stat w2 (OutputDir o)).
  - destruct (decide (length rules = 0)) as [Hnil|Hlen].
    + apply nil_length_inv in Hnil as ->.
      by rewrite (Generate_writes_nil _ _ _ HP H1),
                 (Generate_writes_nil _ _ _ HP2 H2).
    + by rewrite (Generate_writes _ _ _ _ HP Hlen H1),
                 (Generate_writes _ _ _ _ HP2 Hlen H2).
Qed.

End runs.

(** ** Names *)

Lemma length_append (s t : string) :
  String.length (s +:+ t) = String.length s + String.length t.
Proof.
  induction s as [|c s IH]; [done|].
  change (S (String.length (s +:+ t)) = S (String.length s + String.length t)).
  by rewrite IH.
Qed.

Lemma append_cancel_r (s1 s2 t : string) : s1 +:+ t = s2 +:+ t → s1 = s2.
Proof.
  revert s2. induction s1 as [|c s1 IH]; intros [|c' s2] Heq; [done|..].
  - apply (f_equal String.length) in Heq.
    rewrite !length_append in Heq. simpl in Heq. lia.
  - apply (f_equal String.length) in Heq.
    rewrite !length_append in Heq. simpl in Heq. lia.
  - change (String c (s1 +:+ t) = String c' (s2 +:+ t)) in Heq.
    injection Heq as -> Heq. f_equal. by apply IH.
Qed.

(** X6. The binding that [getClusterRoleBindingManifest] renders refers
    to the role that [getClusterRoleManifest] renders from the same options:
    same kind, same name, and an API group that, followed by [/v1], is the
    role's API version. *)
Theorem roleRef_designates_role (rules : list PolicyRule) (o : ManifestOptions) :
  ∃ role binding,
    rendered_role rules o role ∧ rendered_binding o binding ∧
    rbacv1.RoleRef.Kind (rbacv1.ClusterRoleBinding.RoleRef binding)
      = metav1.TypeMeta.Kind (rbacv1.ClusterRole.TypeMeta role) ∧
    rbacv1.RoleRef.Name (rbacv1.ClusterRoleBinding.RoleRef binding)
      = metav1.ObjectMeta.Name (rbacv1.ClusterRole.ObjectMeta role) ∧
    rbacv1.RoleRef.APIGroup (rbacv1.ClusterRoleBinding.RoleRef binding)
      +:+ "/v1"
      = metav1.TypeMeta.APIVersion (rbacv1.ClusterRole.TypeMeta role).
Proof.
  exists (getClusterRoleManifest_role rules o),
         (getClusterRoleBindingManifest_rolebinding o).
  split; [apply rendered_role_literal|].
  split; [apply rendered_binding_literal|]. by repeat split.
Qed.

(** X7. Names do not collide: the roles and bindings rendered for two sets
    of options have the same role name, the same binding name or the same
    subject namespace only when the identity names are the same; and the
    role and the binding rendered for one identity have different names. *)
Theorem names_do_not_collide
    (rules1 rules2 : list PolicyRule) (o1 o2 : ManifestOptions) :
  ∃ role1 role2 binding1 binding2,
    rendered_role rules1 o1 role1 ∧ rendered_role rules2 o2 role2 ∧
    rendered_binding o1 binding1 ∧ rendered_binding o2 binding2 ∧
    (metav1.ObjectMeta.Name (rbacv1.ClusterRole.ObjectMeta role1)
     = metav1.ObjectMeta.Name (rbacv1.ClusterRole.ObjectMeta role2)
     ↔ Name o1 = Name o2) ∧
    (metav1.ObjectMeta.Name (rbacv1.ClusterRoleBinding.ObjectMeta binding1)
     = metav1.ObjectMeta.Name (rbacv1.ClusterRoleBinding.ObjectMeta binding2)
     ↔ Name o1 = Name o2) ∧
    (rbacv1.Subject.Namespace <$> rbacv1.ClusterRoleBinding.Subjects binding1
     = rbacv1.Subject.Namespace <$> rbacv1.ClusterRoleBinding.Subjects binding2
     ↔ Name o1 = Name o2) ∧
    metav1.ObjectMeta.Name (rbacv1.ClusterRole.ObjectMeta role1)
    ≠ metav1.ObjectMeta.Name (rbacv1.ClusterRoleBinding.ObjectMeta binding1).
Proof.
  exists (getClusterRoleManifest_role rules1 o1),
         (getClusterRoleManifest_role rules2 o2),
         (getClusterRoleBindingManifest_rolebinding o1),
         (getClusterRoleBindingManifest_rolebinding o2).
  split; [apply rendered_role_literal|].
  split; [apply rendered_role_literal|].
  split; [apply rendered_binding_literal|].
  split; [apply rendered_binding_literal|].
  simpl. repeat split; try (intros ->; done).
  - apply append_cancel_r.
  - apply append_cancel_r.
  - intros [= Heq]. by apply append_cancel_r in Heq.
  - intros Heq. by apply (inj (String.append _)) in Heq.
Qed.

(** ** More on runs *)

Section more_runs.
Context {W : Type} `{!Host W}.
Context `{!Marshaler ClusterRole, !Marshaler ClusterRoleBinding}.

(** X1. [Validate] returns [nil] exactly when [os.Stat] finds both paths.
    It leaves the world as it was and calls nothing but [Stat]: on the input
    directory alone when that one is not found, and on the input directory
    and then the output directory otherwise. *)
Theorem Validate_accepts_iff (w : W) (o : ManifestOptions) :
  ((run (Validate o) w).1 = None ↔ validated w o) ∧
  (run (Validate o) w).2.1 = w ∧
  (run (Validate o) w).2.2
  = match os_Stat w (InputDir o) with
    | Some _ => [Call_Stat (InputDir o)]
    | None => [Call_Stat (InputDir o); Call_Stat (OutputDir o)]
    end.
Proof.
  rewrite run_Validate. unfold validated.
  destruct (os_Stat w (InputDir o)) as [e|]; simpl.
  { split; [split; [done|by intros [? _]]|done]. }
  destruct (os_Stat w (OutputDir o)) as [e|]; simpl.
  - split; [split; [done|by intros [_ ?]]|done].
  - by split.
Qed.

(** X2. [Generate] returns [nil] exactly when both directories are found,
    the parser returns no error, and either it returned no rule or both
    encodings and both writes (the role's, then the binding's on the world the
    first write left) returned no error. *)
Theorem Generate_succeeds_iff (w : W) (o : ManifestOptions) :
  (run (Generate o) w).1 = None ↔
  validated w o ∧
  ∃ rules, ParseDir w (InputDir o) = (rules, None) ∧
    (rules = [] ∨
     ∃ role binding w1 w2,
       getClusterRoleManifest rules o = (role, None) ∧
       getClusterRoleBindingManifest o = (binding, None) ∧
       ioutil_WriteFile w (filepath_Join (OutputDir o) "rbac_role.yaml")
                        role perm_0666 = (w1, None) ∧
       ioutil_WriteFile w1 (filepath_Join (OutputDir o) "rbac_role_binding.yaml")
                        binding perm_0666 = (w2, None)).
Proof.
  rewrite run_Generate. unfold validated.
  destruct (os_Stat w (InputDir o)) as [?|];
    [split; [done|by intros [[? _] _]]|].
  destruct (os_Stat w (OutputDir o)) as [?|];
    [split; [done|by intros [[_ ?] _]]|].
  destruct (ParseDir w (InputDir o)) as [rules [?|]];
    [split; [done|by intros (_ & rs & ? & _)]|].
  destruct (decide (length rules = 0)) as [Hnil|Hlen].
  { apply nil_length_inv in Hnil as ->.
    split; [|done]. intros _. split; [done|]. exists []. by split; [|left]. }
  assert (rules ≠ []) as Hne by (by intros ->).
  destruct (getClusterRoleManifest rules o) as [rm [?|]] eqn:HR.
  { split; [done|]. intros (_ & rs & [= <-] & [?|Hex]); [done|].
    destruct Hex as (? & ? & ? & ? & Hr & _). congruence. }
  destruct (getClusterRoleBindingManifest o) as [bm [?|]] eqn:HB.
  { split; [done|]. intros (_ & rs & [= <-] & [?|Hex]); [done|].
    destruct Hex as (? & ? & ? & ? & _ & Hb & _). congruence. }
  destruct (ioutil_WriteFile w _ rm _) as [w1 [?|]] eqn:Hw1.
  { split; [done|]. intros (_ & rs & [= <-] & [?|Hex]); [done|].
    destruct Hex as (? & ? & ? & ? & Hr & Hb & Ha & _). congruence. }
  destruct (ioutil_WriteFile w1 _ bm _) as [w2 [?|]] eqn:Hw2.
  - split; [done|]. intros (_ & rs & [= <-] & [?|Hex]); [done|].
    destruct Hex as (? & ? & ? & ? & Hr & Hb & Ha & Hc). congruence.
  - split; [|done]. intros _. split; [done|].
    exists rules. split; [done|]. right. by exists rm, bm, w1, w2.
Qed.

(** X3. Whatever happens, the calls of a run are an initial part of one
    fixed sequence: [Stat] of the input directory, [Stat] of the output
    directory, the parse of the input directory, the role builder on the
    parsed rules, the binding builder, the write of the role to
    [rbac_role.yaml] and the write of the binding to [rbac_role_binding.yaml],
    both under the output directory with mode [0666]. So no other file is
    written, nothing is written before both manifests are encoded, and the
    binding is never written before the role. *)
Theorem Generate_calls_in_order (w : W) (o : ManifestOptions) :
  (run (Generate o) w).2.2 `prefix_of` pipeline w o.
Proof.
  rewrite run_Generate. unfold pipeline, built, scanned.
  destruct (os_Stat w (InputDir o)) as [?|]; [by eexists|].
  destruct (os_Stat w (OutputDir o)) as [?|]; [by eexists|].
  destruct (ParseDir w (InputDir o)) as [rules [?|]]; simpl; [by eexists|].
  destruct (decide (length rules = 0)); [by eexists|].
  destruct (getClusterRoleManifest rules o) as [rm [?|]]; simpl; [by eexists|].
  destruct (getClusterRoleBindingManifest o) as [bm [?|]]; simpl; [by eexists|].
  destruct (ioutil_WriteFile w _ rm _) as [w1 [?|]]; simpl; [by eexists|].
  destruct (ioutil_WriteFile w1 _ bm _) as [w2 [?|]]; simpl; by eexists [].
Qed.

(** X5. Once both manifests are encoded, a failed write ends the run with
    [failed to write role manifest YAML file <e>], the same text for either
    file. After a failed write of the role the binding is not attempted;
    after a failed write of the binding nothing is done about the role
    already written: the run ends in the world the failed write left. *)
Theorem Generate_write_failure
    (w : W) (o : ManifestOptions) (rules : list PolicyRule)
    (role binding : list byte) :
  validated w o →
  ParseDir w (InputDir o) = (rules, None) →
  length rules ≠ 0 →
  getClusterRoleManifest rules o = (role, None) →
  getClusterRoleBindingManifest o = (binding, None) →
  (∀ w1 e,
     ioutil_WriteFile w (filepath_Join (OutputDir o) "rbac_role.yaml")
                      role perm_0666 = (w1, Some e) →
     run (Generate o) w
     = (Some ("failed to write role manifest YAML file " +:+ e),
        (w1, built rules o ++ [write_role o role]))) ∧
  (∀ w1 w2 e,
     ioutil_WriteFile w (filepath_Join (OutputDir o) "rbac_role.yaml")
                      role perm_0666 = (w1, None) →
     ioutil_WriteFile w1 (filepath_Join (OutputDir o) "rbac_role_binding.yaml")
                      binding perm_0666 = (w2, Some e) →
     run (Generate o) w
     = (Some ("failed to write role manifest YAML file " +:+ e),
        (w2, built rules o ++ [write_role o role; write_binding o binding]))).
Proof.
  intros [Hin Hout] HP Hlen HR HB. split.
  - intros w1 e Hw1.
    rewrite run_Generate, Hin, Hout, HP, HR, HB, Hw1.
    by rewrite decide_False by done.
  - intros w1 w2 e Hw1 Hw2.
    rewrite run_Generate, Hin, Hout, HP, HR, HB, Hw1, Hw2.
    by rewrite decide_False by done.
Qed.

(** X8. A run that returns [nil] has either found no rule and made no call
    after the parse, or made every call of the full sequence: when rules
    were found, success means both files were written. *)
Theorem Generate_nil_ran_to_the_end (w : W) (o : ManifestOptions) :
  (run (Generate o) w).1 = None →
  ((ParseDir w (InputDir o)).1 = [] ∧ (run (Generate o) w).2.2 = scanned o) ∨
  ((ParseDir w (InputDir o)).1 ≠ [] ∧ (run (Generate o) w).2.2 = pipeline w o).
Proof.
  rewrite run_Generate. unfold pipeline.
  destruct (os_Stat w (InputDir o)) as [?|]; [done|].
  destruct (os_Stat w (OutputDir o)) as [?|]; [done|].
  destruct (ParseDir w (InputDir o)) as [rules [?|]]; [done|]. simpl.
  destruct (decide (length rules = 0)) as [Hnil|Hlen].
  { apply nil_length_inv in Hnil. by left. }
  assert (rules ≠ []) as Hne by (by intros ->).
  destruct (getClusterRoleManifest rules o) as [rm [?|]]; [done|].
  destruct (getClusterRoleBindingManifest o) as [bm [?|]]; [done|].
  destruct (ioutil_WriteFile w _ rm _) as [w1 [?|]]; [done|].
  destruct (ioutil_WriteFile w1 _ bm _) as [w2 [?|]]; [done|].
  intros _. by right.
Qed.

(** X9. The command on a tree without annotations: when both directories
    are found and the parser returns no rule and no error, [Run] prints
    [RBAC manifests generated under '<output-dir>' directory] although no
    file was written and the world is as it was. *)
Theorem main_without_rules (w : W) (args : CommandLine) :
  validated w (parseFlags args (registerFlags
                 {| InputDir := ""; OutputDir := ""; Name := ""; Labels := ∅ |})) →
  ParseDir w (default "./pkg" (flag_input_dir args)) = ([], None) →
  run (main args) w
  = (Printed ("RBAC manifests generated under '"
              +:+ default "./config" (flag_output_dir args)
              +:+ "' directory" +:+ newline),
     (w, [Call_Stat (default "./pkg" (flag_input_dir args));
          Call_Stat (default "./config" (flag_output_dir args));
          Call_ParseDir (default "./pkg" (flag_input_dir args))])).
Proof.
  intros [Hin Hout] HP. unfold main, main_Run, run.
  unfold mbind at 1. unfold IO_bind at 1. cbn [runIO].
  pose proof (run_Generate w (parseFlags args (registerFlags
    {| InputDir := ""; OutputDir := ""; Name := ""; Labels := ∅ |}))) as HG.
  unfold run in HG. rewrite HG, Hin, Hout. simpl. by rewrite HP.
Qed.


End more_runs.

(** ** The package on the in-memory host *)

Import Mem.





(** The default identity [manager] gives [manager-role],
    [manager-rolebinding] and [manager-system]. *)
Lemma names_derive_from_identity_witness :
  Name manager ≠ "" ∧
  ∃ role binding,
    rendered_role [pods_get; pods_list] manager role ∧
    rendered_binding manager binding ∧
    metav1.ObjectMeta.Name (rbacv1.ClusterRole.ObjectMeta role)
      = "manager-role" ∧
    metav1.ObjectMeta.Name (rbacv1.ClusterRoleBinding.ObjectMeta binding)
      = "manager-rolebinding" ∧
    rbacv1.RoleRef.Name (rbacv1.ClusterRoleBinding.RoleRef binding)
      = metav1.ObjectMeta.Name (rbacv1.ClusterRole.ObjectMeta role) ∧
    rbacv1.RoleRef.Name (rbacv1.ClusterRoleBinding.RoleRef binding)
      = "manager-role" ∧
    rbacv1.Subject.Namespace <$> rbacv1.ClusterRoleBinding.Subjects binding
      = ["manager-system"] ∧
    rbacv1.Subject.Name <$> rbacv1.ClusterRoleBinding.Subjects binding
      = ["default"].
Proof.
  split; [discriminate|].
  apply (names_derive_from_identity [pods_get; pods_list] manager).
  discriminate.
Defined.

(** Two rules whose API groups are the same set in another order have the
    same tuple: left apart as they are, they are not their own aggregate. *)
Example same_groups_in_another_order :
  ¬ aggregates
      [ {| rbacv1.PolicyRule.Verbs := ["get"];
           rbacv1.PolicyRule.APIGroups := ["apps"; "batch"];
           rbacv1.PolicyRule.Resources := ["jobs"];
           rbacv1.PolicyRule.ResourceNames := [];
           rbacv1.PolicyRule.NonResourceURLs := [] |};
        {| rbacv1.PolicyRule.Verbs := ["list"];
           rbacv1.PolicyRule.APIGroups := ["batch"; "apps"];
           rbacv1.PolicyRule.Resources := ["jobs"];
           rbacv1.PolicyRule.ResourceNames := [];
           rbacv1.PolicyRule.NonResourceURLs := [] |} ]
      [ {| rbacv1.PolicyRule.Verbs := ["get"];
           rbacv1.PolicyRule.APIGroups := ["apps"; "batch"];
           rbacv1.PolicyRule.Resources := ["jobs"];
           rbacv1.PolicyRule.ResourceNames := [];
           rbacv1.PolicyRule.NonResourceURLs := [] |};
        {| rbacv1.PolicyRule.Verbs := ["list"];
           rbacv1.PolicyRule.APIGroups := ["batch"; "apps"];
           rbacv1.PolicyRule.Resources := ["jobs"];
           rbacv1.PolicyRule.ResourceNames := [];
           rbacv1.PolicyRule.NonResourceURLs := [] |} ].
Proof.
  intros [_ Hagg].
  destruct (Hagg _ (list_elem_of_here _ _)) as (r & Hr & _).
  vm_compute in Hr. discriminate Hr.
Qed.

(** A source directory without annotations: nothing is written. *)
Lemma Generate_without_rules_witness :
  validated bare manager ∧
  ParseDir bare (InputDir manager) = ([], None) ∧
  run (Generate manager) bare = (None, (bare, scanned manager)) ∧
  filter is_write (scanned manager) = [].
Proof.
  assert (validated bare manager) as Hv by (split; reflexivity).
  assert (ParseDir bare (InputDir manager) = ([], None)) as Hp by reflexivity.
  split; [exact Hv|]. split; [exact Hp|].
  exact (Generate_without_rules bare manager Hv Hp).
Defined.



(** The source directory is missing: the run stops at the first [Stat]. *)
Lemma Generate_upstream_failure_witness :
  upstream_failure no_input manager "stat ./pkg: no such file or directory" ∧
  ∃ context calls,
    run (Generate manager) no_input
      = (Some (context +:+ "stat ./pkg: no such file or directory"),
         (no_input, calls)) ∧
    filter is_write calls = [] ∧
    (os_Stat no_input (InputDir manager)
       = Some "stat ./pkg: no such file or directory" →
     context = "invalid input directory '" +:+ InputDir manager +:+ "' " ∧
     calls = [Call_Stat (InputDir manager)] ∧
     filter is_scan calls = []).
Proof.
  assert (upstream_failure no_input manager
            "stat ./pkg: no such file or directory") as Hf
    by (apply input_dir_fails; reflexivity).
  split; [exact Hf|].
  exact (Generate_upstream_failure no_input manager _ Hf).
Defined.

(** Generating twice: the second run, on the world the first one left,
    writes the same two files with the same bytes. *)
Lemma Generate_reproducible_witness :
  ParseDir tree (InputDir manager) = ParseDir generated (InputDir manager) ∧
  (run (Generate manager) tree).1 = None ∧
  (run (Generate manager) generated).1 = None ∧
  filter is_write (run (Generate manager) tree).2.2
    = filter is_write (run (Generate manager) generated).2.2.
Proof.
  split; [reflexivity|]. split; [reflexivity|]. split; [reflexivity|].
  apply (Generate_reproducible tree generated manager
           (run (Generate manager) tree).2
           (run (Generate manager) generated).2);
    vm_compute; reflexivity.
Defined.

(** *** Each way a run can stop before its first write *)

(** The output directory is missing. *)
Example output_dir_missing :
  run (Generate manager)
      {| paths := ["./pkg"]; annotated := [("./pkg", [pods_get])];
         files := []; readonly := [] |}
  = (Some "invalid output directory './config' stat ./config: no such file or directory",
     ({| paths := ["./pkg"]; annotated := [("./pkg", [pods_get])];
         files := []; readonly := [] |},
      [Call_Stat "./pkg"; Call_Stat "./config"])).
Proof. reflexivity. Qed.

(** The parser fails. *)
Example parser_fails :
  run (Generate manager)
      {| paths := ["./pkg"; "./config"]; annotated := [];
         files := []; readonly := [] |}
  = (Some "failed to parse the input dir lstat ./pkg: no such file or directory",
     ({| paths := ["./pkg"; "./config"]; annotated := [];
         files := []; readonly := [] |},
      scanned manager)).
Proof. reflexivity. Qed.

(** The encoder refuses the role. *)
Example role_refused :
  run (Generate (Marshaler0 := refuse) manager) tree
  = (Some "failed to generate role manifest yaml: unsupported value",
     (tree, scanned manager
            ++ [Call_getClusterRoleManifest [pods_get; pods_list] manager])).
Proof. reflexivity. Qed.

(** The encoder refuses the binding: the role, already encoded, is not
    written either. *)
Example binding_refused :
  run (Generate (Marshaler1 := refuse) manager) tree
  = (Some "failed to generate role binding manifests yaml: unsupported value",
     (tree, built [pods_get; pods_list] manager)).
Proof. reflexivity. Qed.

(** The second write is refused: the first file stays. *)
Example second_write_refused :
  map fst
    (files
       (run (Generate manager)
            {| paths := ["./pkg"; "./config"];
               annotated := [("./pkg", [pods_get])];
               files := [];
               readonly := ["config/rbac_role_binding.yaml"] |}).2.1)
  = ["config/rbac_role.yaml"] ∧
  (run (Generate manager)
       {| paths := ["./pkg"; "./config"];
          annotated := [("./pkg", [pods_get])];
          files := [];
          readonly := ["config/rbac_role_binding.yaml"] |}).1
  = Some "failed to write role manifest YAML file open config/rbac_role_binding.yaml: permission denied".
Proof. split; reflexivity. Qed.

(** *** Runs that stop at a write, and the command *)

(** The binding's file refuses the write: the role's file is written, the
    run fails, and the failed write is its last call. *)
Lemma Generate_write_failure_witness :
  validated locked_binding manager ∧
  ParseDir locked_binding (InputDir manager) = ([pods_get], None) ∧
  (∀ w1 w2 e,
     ioutil_WriteFile locked_binding
       (filepath_Join (OutputDir manager) "rbac_role.yaml")
       (getClusterRoleManifest [pods_get] manager).1 perm_0666 = (w1, None) →
     ioutil_WriteFile w1
       (filepath_Join (OutputDir manager) "rbac_role_binding.yaml")
       (getClusterRoleBindingManifest manager).1 perm_0666 = (w2, Some e) →
     run (Generate manager) locked_binding
     = (Some ("failed to write role manifest YAML file " +:+ e),
        (w2, built [pods_get] manager
             ++ [write_role manager (getClusterRoleManifest [pods_get] manager).1;
                 write_binding manager (getClusterRoleBindingManifest manager).1]))).
Proof.
  assert (validated locked_binding manager) as Hv by (split; reflexivity).
  assert (ParseDir locked_binding (InputDir manager) = ([pods_get], None))
    as Hp by reflexivity.
  split; [exact Hv|]. split; [exact Hp|].
  refine (proj2 (Generate_write_failure locked_binding manager [pods_get]
                   (getClusterRoleManifest [pods_get] manager).1
                   (getClusterRoleBindingManifest manager).1
                   Hv Hp _ _ _)).
  - discriminate.
  - reflexivity.
  - reflexivity.
Defined.

(** A successful run on the tree with two annotations makes all seven
    calls. *)
Lemma Generate_nil_ran_to_the_end_witness :
  (run (Generate manager) tree).1 = None ∧
  (((ParseDir tree (InputDir manager)).1 = [] ∧
    (run (Generate manager) tree).2.2 = scanned manager) ∨
   ((ParseDir tree (InputDir manager)).1 ≠ [] ∧
    (run (Generate manager) tree).2.2 = pipeline tree manager)).
Proof.
  split; [reflexivity|].
  apply (Generate_nil_ran_to_the_end tree manager). reflexivity.
Defined.

(** The command without flags on a source directory without annotations. *)
Lemma main_without_rules_witness :
  run (main no_flags) bare
  = (Printed ("RBAC manifests generated under './config' directory" +:+ newline),
     (bare, [Call_Stat "./pkg"; Call_Stat "./config"; Call_ParseDir "./pkg"])).
Proof.
  apply (main_without_rules bare no_flags).
  - split; reflexivity.
  - reflexivity.
Defined.
